(** * TAS2505 driver: register addressing and configuration scripts

    A shallow embedding of [tas2505.py], the MicroPython driver of the
    Texas Instruments TAS2505 class-D speaker amplifier, and the properties
    of its register accessor and of its script engine.

    The driver talks to two collaborators it does not define: the I2C bus
    object handed to the constructor and [time.sleep_ms].  Both are modelled
    by their calls: every call is appended to a log, the bus keeps a state of
    its own and answers each call with a value or an exception. *)

From Stdlib Require Import ZArith List Lia Bool.
From stdpp Require Import base list strings gmap.
Import ListNotations.
Local Open Scope Z_scope.

(** ** Python values and exceptions *)

(** [_register = namedtuple('Reg', 'num page')] *)
Record Reg : Type := _register { num : Z; page : Z }.

(** The first element of a script line is either a register descriptor or
    the integer token [DELAY_MS]. *)
Inductive pyval : Type :=
  | VInt (n : Z)
  | VReg (r : Reg).

(** Exceptions the driver can meet.  [OSError] is what the bus raises;
    [AttributeError] is [reg.page] on a value that is no [Reg];
    [IndexError] is [ret[0]] on an empty [bytes]. *)
Inductive exn : Type :=
  | OSError (errno : Z)
  | AttributeError
  | IndexError.

Inductive res (A : Type) : Type :=
  | Ok (a : A)
  | Raise (e : exn).
Arguments Ok {A} a.
Arguments Raise {A} e.

(** Python's [==] on the two kinds of value: a namedtuple is a tuple, it
    compares by fields with another one and is never equal to an [int]. *)
Definition py_eq (a b : pyval) : bool :=
  match a, b with
  | VInt x, VInt y => x =? y
  | VReg r, VReg s => (num r =? num s) && (page r =? page s)
  | _, _ => false
  end.

(** [ustruct.pack('B', v)]: a [bytes] of length one.  MicroPython's
    [ustruct] does no range check, it stores the low-order byte of [v]. *)
Definition pack_B (v : Z) : list Z := [Z.land v 255].
Arguments pack_B : simpl never.

(** ** The collaborators: bus, clock, and the log of calls *)

Inductive event : Type :=
  | EvWriteMem (addr memaddr : Z) (buf : list Z)
  | EvReadMem (addr memaddr : Z) (nbytes : Z)
  | EvSleep (ms : Z).

(** An I2C bus object with internal state [B]: [writeto_mem] and
    [readfrom_mem] of [machine.I2C]. *)
Record I2C (B : Type) : Type := {
  i2c_writeto_mem : Z -> Z -> list Z -> B -> B * res unit;
  i2c_readfrom_mem : Z -> Z -> Z -> B -> B * res (list Z)
}.
Arguments i2c_writeto_mem {B} _ _ _ _ _.
Arguments i2c_readfrom_mem {B} _ _ _ _ _.

Record World (B : Type) : Type := mkWorld { bus : B; log : list event }.
Arguments mkWorld {B} _ _.
Arguments bus {B} _.
Arguments log {B} _.

(** Computations of the driver: they change the world and return a value
    or raise. *)
Definition M (B A : Type) : Type := World B -> World B * res A.

Definition ret {B A} (a : A) : M B A := fun w => (w, Ok a).
Definition raise {B A} (e : exn) : M B A := fun w => (w, Raise e).
Definition bind {B A C} (m : M B A) (k : A -> M B C) : M B C :=
  fun w =>
    match m w with
    | (w', Ok a) => k a w'
    | (w', Raise e) => (w', Raise e)
    end.

Notation "'do' x <- m ; k" := (bind m (fun x => k))
  (at level 10, x name, m at level 100, k at level 200).
Notation "m ;; k" := (bind m (fun _ => k))
  (at level 100, k at level 200, right associativity).

Definition writeto_mem {B} (i2c : I2C B) (addr memaddr : Z) (buf : list Z)
  : M B unit :=
  fun w =>
    let (b, r) := i2c_writeto_mem i2c addr memaddr buf (bus w) in
    (mkWorld b (log w ++ [EvWriteMem addr memaddr buf]), r).

Definition readfrom_mem {B} (i2c : I2C B) (addr memaddr nbytes : Z)
  : M B (list Z) :=
  fun w =>
    let (b, r) := i2c_readfrom_mem i2c addr memaddr nbytes (bus w) in
    (mkWorld b (log w ++ [EvReadMem addr memaddr nbytes]), r).

(** [time.sleep_ms] *)
Definition sleep_ms {B} (ms : Z) : M B unit :=
  fun w => (mkWorld (bus w) (log w ++ [EvSleep ms]), Ok tt).

(** ** The driver *)

Definition _PAGE0 : Z := 0.
Definition _PAGE1 : Z := 1.
Definition _PAGE_SELECT : Z := 0x00.

(** special token used in a script to specify a time delay *)
Definition DELAY_MS : Z := -999.

(** page 0 configuration registers *)
Definition SOFTWARE_RESET := _register 1 _PAGE0.
Definition CLOCK_SETTING_1 := _register 4 _PAGE0.
Definition CLOCK_SETTING_2 := _register 5 _PAGE0.
Definition CLOCK_SETTING_3 := _register 6 _PAGE0.
Definition CLOCK_SETTING_4 := _register 7 _PAGE0.
Definition CLOCK_SETTING_5 := _register 8 _PAGE0.
Definition CLOCK_SETTING_6 := _register 11 _PAGE0.
Definition CLOCK_SETTING_7 := _register 12 _PAGE0.
Definition DAC_OSR_SETTING_1 := _register 13 _PAGE0.
Definition DAC_OSR_SETTING_2 := _register 14 _PAGE0.
Definition AUDIO_INTERFACE_SETTING_1 := _register 27 _PAGE0.
Definition DAC_INSTRUCTION_SET := _register 60 _PAGE0.
Definition DAC_CHANNEL_SETUP_1 := _register 63 _PAGE0.
Definition DAC_CHANNEL_SETUP_2 := _register 64 _PAGE0.
Definition DAC_CHANNEL_DIGITAL_VOLUME_CONTROL := _register 65 _PAGE0.

(** page 1 configuration registers *)
Definition REF_POR_LDO_BGAP_CONTROL := _register 1 _PAGE1.
Definition LDO_CONTROL := _register 2 _PAGE1.
Definition COMMON_MODE_CONTROL := _register 10 _PAGE1.
Definition SPEAKER_AMPLIFIER_CONTROL_1 := _register 45 _PAGE1.
Definition SPEAKER_VOLUME_CONTROL_1 := _register 46 _PAGE1.
Definition SPEAKER_AMPLIFIER_VOLUME_CONTROL_2 := _register 48 _PAGE1.

(** The named descriptors of the class, in the order they are declared. *)
Definition register_table : list (string * Reg) :=
  [ ("SOFTWARE_RESET", SOFTWARE_RESET);
    ("CLOCK_SETTING_1", CLOCK_SETTING_1);
    ("CLOCK_SETTING_2", CLOCK_SETTING_2);
    ("CLOCK_SETTING_3", CLOCK_SETTING_3);
    ("CLOCK_SETTING_4", CLOCK_SETTING_4);
    ("CLOCK_SETTING_5", CLOCK_SETTING_5);
    ("CLOCK_SETTING_6", CLOCK_SETTING_6);
    ("CLOCK_SETTING_7", CLOCK_SETTING_7);
    ("DAC_OSR_SETTING_1", DAC_OSR_SETTING_1);
    ("DAC_OSR_SETTING_2", DAC_OSR_SETTING_2);
    ("AUDIO_INTERFACE_SETTING_1", AUDIO_INTERFACE_SETTING_1);
    ("DAC_INSTRUCTION_SET", DAC_INSTRUCTION_SET);
    ("DAC_CHANNEL_SETUP_1", DAC_CHANNEL_SETUP_1);
    ("DAC_CHANNEL_SETUP_2", DAC_CHANNEL_SETUP_2);
    ("DAC_CHANNEL_DIGITAL_VOLUME_CONTROL", DAC_CHANNEL_DIGITAL_VOLUME_CONTROL);
    ("REF_POR_LDO_BGAP_CONTROL", REF_POR_LDO_BGAP_CONTROL);
    ("LDO_CONTROL", LDO_CONTROL);
    ("COMMON_MODE_CONTROL", COMMON_MODE_CONTROL);
    ("SPEAKER_AMPLIFIER_CONTROL_1", SPEAKER_AMPLIFIER_CONTROL_1);
    ("SPEAKER_VOLUME_CONTROL_1", SPEAKER_VOLUME_CONTROL_1);
    ("SPEAKER_AMPLIFIER_VOLUME_CONTROL_2", SPEAKER_AMPLIFIER_VOLUME_CONTROL_2)
  ]%string.

(** A script line: [(register or DELAY_MS, value)]. *)
Definition line : Type := pyval * Z.

(** Default script to configure playback mode, 16 bit I2S input, speaker
    output.  The binary literals of the source are written in hexadecimal. *)
Definition CONFIG_I2S_IN_SPEAKER_OUT : list line :=
  [ (VReg SOFTWARE_RESET, 0x01 (* 0b00000001 *));
    (VInt DELAY_MS, 2);
    (VReg LDO_CONTROL, 0x00 (* 0b00000000 *));
    (VReg CLOCK_SETTING_1, 0x07 (* 0b00000111 *));
    (VReg CLOCK_SETTING_2, 0x91 (* 0b10010001 *));
    (VReg CLOCK_SETTING_3, 40);
    (VReg CLOCK_SETTING_4, 0);
    (VReg CLOCK_SETTING_5, 0);
    (VInt DELAY_MS, 15);
    (VReg CLOCK_SETTING_6, 0x81 (* 0b10000001 *));
    (VReg CLOCK_SETTING_7, 0x82 (* 0b10000010 *));
    (VReg DAC_OSR_SETTING_1, 0x02);
    (VReg DAC_OSR_SETTING_2, 0x80);
    (VReg AUDIO_INTERFACE_SETTING_1, 0x00 (* 0b00000000 *));
    (VReg DAC_INSTRUCTION_SET, 0x02 (* 0b00000010 *));
    (VReg REF_POR_LDO_BGAP_CONTROL, 0x10 (* 0b00010000 *));
    (VReg COMMON_MODE_CONTROL, 0x00 (* 0b00000000 *));
    (VReg SPEAKER_VOLUME_CONTROL_1, 0);
    (VReg SPEAKER_AMPLIFIER_VOLUME_CONTROL_2, 0x00 (* 0b00000000 *));
    (VReg SPEAKER_AMPLIFIER_CONTROL_1, 0x02 (* 0b00000010 *));
    (VReg DAC_CHANNEL_SETUP_1, 0x91 (* 0b10010001 *));
    (VReg DAC_CHANNEL_DIGITAL_VOLUME_CONTROL, 0);
    (VReg DAC_CHANNEL_SETUP_2, 0x04 (* 0b00000100 *))
  ].

(** The object: [self._i2c], [self._address]. *)
Record TAS2505 (B : Type) : Type := mkTAS2505 {
  _i2c : I2C B;
  _address : Z
}.
Arguments mkTAS2505 {B} _ _.
Arguments _i2c {B} _.
Arguments _address {B} _.

Definition __init__ {B} (i2c : I2C B) : TAS2505 B :=
  mkTAS2505 i2c 0x18.

Definition _set_page {B} (self : TAS2505 B) (page : Z) : M B unit :=
  let wreg := pack_B page in
  writeto_mem (_i2c self) (_address self) _PAGE_SELECT wreg.

(** writing a register consists of 2 steps:
    1. selecting the register page
    2. writing the register with a single byte value *)
Definition _set_register {B} (self : TAS2505 B) (reg : Reg) (value : Z)
  : M B unit :=
  _set_page self (page reg) ;;
  let wreg := pack_B value in
  writeto_mem (_i2c self) (_address self) (num reg) wreg.

Definition read_register {B} (self : TAS2505 B) (reg : Reg) : M B Z :=
  _set_page self (page reg) ;;
  do r <- readfrom_mem (_i2c self) (_address self) (num reg) 1 ;
  match r with
  | b :: _ => ret b
  | [] => raise IndexError
  end.

(** One turn of the loop of [config].  A first element that is neither
    [DELAY_MS] nor a [Reg] reaches [_set_register], whose [reg.page] raises
    before the bus is touched. *)
Definition config_action {B} (self : TAS2505 B) (action : line) : M B unit :=
  if py_eq (fst action) (VInt DELAY_MS) then
    sleep_ms (snd action)
  else
    match fst action with
    | VReg reg => _set_register self reg (snd action)
    | VInt _ => raise AttributeError
    end.

Fixpoint config {B} (self : TAS2505 B) (config_script : list line)
  : M B unit :=
  match config_script with
  | [] => ret tt
  | action :: rest => config_action self action ;; config self rest
  end.

(** [config()] with its default argument. *)
Definition config_default {B} (self : TAS2505 B) : M B unit :=
  config self CONFIG_I2S_IN_SPEAKER_OUT.

Definition set_speaker_amplifier_volume {B} (self : TAS2505 B) (volume : Z)
  : M B unit :=
  _set_register self SPEAKER_AMPLIFIER_VOLUME_CONTROL_2 (Z.shiftl volume 4).

(** ** Scripts as the specification sees them *)

(** The two kinds of action of a script, and the pair each is written as
    in a script of the driver. *)
Inductive Action : Type :=
  | WriteRegister (descriptor : Reg) (value : Z)
  | Delay (milliseconds : Z).

Definition encode (a : Action) : line :=
  match a with
  | WriteRegister d v => (VReg d, v)
  | Delay ms => (VInt DELAY_MS, ms)
  end.

(** The calls an action stands for: the page-select write and the value
    write of a register action, the wait of a delay. *)
Definition page_select_event (p : Z) : event :=
  EvWriteMem 0x18 _PAGE_SELECT (pack_B p).

Definition value_write_event (d : Reg) (v : Z) : event :=
  EvWriteMem 0x18 (num d) (pack_B v).

Definition action_events (a : Action) : list event :=
  match a with
  | WriteRegister d v => [page_select_event (page d); value_write_event d v]
  | Delay ms => [EvSleep ms]
  end.

Definition script_events (s : list Action) : list event :=
  concat (map action_events s).

(** [CONFIG_I2S_IN_SPEAKER_OUT], line by line, as actions. *)
Definition default_actions : list Action :=
  [ WriteRegister SOFTWARE_RESET 0x01;
    Delay 2;
    WriteRegister LDO_CONTROL 0x00;
    WriteRegister CLOCK_SETTING_1 0x07;
    WriteRegister CLOCK_SETTING_2 0x91;
    WriteRegister CLOCK_SETTING_3 40;
    WriteRegister CLOCK_SETTING_4 0;
    WriteRegister CLOCK_SETTING_5 0;
    Delay 15;
    WriteRegister CLOCK_SETTING_6 0x81;
    WriteRegister CLOCK_SETTING_7 0x82;
    WriteRegister DAC_OSR_SETTING_1 0x02;
    WriteRegister DAC_OSR_SETTING_2 0x80;
    WriteRegister AUDIO_INTERFACE_SETTING_1 0x00;
    WriteRegister DAC_INSTRUCTION_SET 0x02;
    WriteRegister REF_POR_LDO_BGAP_CONTROL 0x10;
    WriteRegister COMMON_MODE_CONTROL 0x00;
    WriteRegister SPEAKER_VOLUME_CONTROL_1 0;
    WriteRegister SPEAKER_AMPLIFIER_VOLUME_CONTROL_2 0x00;
    WriteRegister SPEAKER_AMPLIFIER_CONTROL_1 0x02;
    WriteRegister DAC_CHANNEL_SETUP_1 0x91;
    WriteRegister DAC_CHANNEL_DIGITAL_VOLUME_CONTROL 0;
    WriteRegister DAC_CHANNEL_SETUP_2 0x04
  ].

(** The register actions among the actions of a script. *)
Definition is_write (a : Action) : bool :=
  match a with
  | WriteRegister _ _ => true
  | Delay _ => false
  end.

(** The place of a register: its page and its address in the page. *)
Definition address_of (d : Reg) : Z * Z := (page d, num d).

(** ** Buses to run the driver against *)

(** The bus answered a write with success. *)
Definition acks {B} (i2c : I2C B) (addr memaddr : Z) (buf : list Z) (b : B)
  : Prop :=
  snd (i2c_writeto_mem i2c addr memaddr buf b) = Ok tt.

(** A bus that acknowledges every write, whatever its state. *)
Definition always_acks {B} (i2c : I2C B) : Prop :=
  forall addr memaddr buf b, acks i2c addr memaddr buf b.

(** The simplest such bus: no state, reads give zeros. *)
Definition ack_bus : I2C unit := {|
  i2c_writeto_mem := fun _ _ _ b => (b, Ok tt);
  i2c_readfrom_mem := fun _ _ n b => (b, Ok (replicate (Z.to_nat n) 0))
|}.

(** A bus whose transaction number [n] (counted from 0) fails with EIO and
    whose other transactions succeed; the state counts the transactions. *)
Definition EIO : Z := 5.

Definition flaky_bus (n : nat) : I2C nat := {|
  i2c_writeto_mem := fun _ _ _ b =>
    (S b, if Nat.eqb b n then Raise (OSError EIO) else Ok tt);
  i2c_readfrom_mem := fun _ _ k b =>
    (S b, if Nat.eqb b n then Raise (OSError EIO)
          else Ok (replicate (Z.to_nat k) 0))
|}.

(** A device that keeps what it is told: the selected page and one byte per
    (page, address).  Address 0 is the page-select register on every page;
    a multi-byte transfer moves on to the next address after each byte.
    Only the bus address 0x18 answers. *)
Record Device : Type := mkDevice {
  selected : Z;
  cells : gmap (Z * Z) Z
}.

Definition ENODEV : Z := 19.

Definition poke (dev : Device) (a b : Z) : Device :=
  if a =? 0 then mkDevice b (cells dev)
  else mkDevice (selected dev) (<[(selected dev, a) := b]> (cells dev)).

Definition peek (dev : Device) (a : Z) : Z :=
  if a =? 0 then selected dev
  else default 0 (cells dev !! (selected dev, a)).

Fixpoint poke_bytes (dev : Device) (a : Z) (buf : list Z) : Device :=
  match buf with
  | [] => dev
  | b :: rest => poke_bytes (poke dev a b) (a + 1) rest
  end.

Fixpoint peek_bytes (dev : Device) (a : Z) (n : nat) : list Z :=
  match n with
  | O => []
  | S k => peek dev a :: peek_bytes dev (a + 1) k
  end.

Definition mock_device : I2C Device := {|
  i2c_writeto_mem := fun addr memaddr buf dev =>
    if addr =? 0x18 then (poke_bytes dev memaddr buf, Ok tt)
    else (dev, Raise (OSError ENODEV));
  i2c_readfrom_mem := fun addr memaddr n dev =>
    if addr =? 0x18 then (dev, Ok (peek_bytes dev memaddr (Z.to_nat n)))
    else (dev, Raise (OSError ENODEV))
|}.

(** ** Reading a log, and what a script leaves in a device *)

Definition is_sleep (ev : event) : bool :=
  match ev with
  | EvSleep _ => true
  | _ => false
  end.

Definition is_bus (ev : event) : bool := negb (is_sleep ev).

(** The waits a script asks for, in its order. *)
Definition delays (s : list Action) : list Z :=
  List.flat_map (fun a => match a with
                          | Delay ms => [ms]
                          | WriteRegister _ _ => []
                          end) s.

(** A call of the kind a script makes: a wait, or a write of one byte to
    the device at 0x18. *)
Definition sleep_or_byte_write (ev : event) : Prop :=
  match ev with
  | EvSleep _ => True
  | EvWriteMem addr _ [b] => addr = 0x18 /\ 0 <= b < 256
  | _ => False
  end.

(** Two descriptors that name the same cell of the device: the same
    address on pages with the same low byte. *)
Definition same_cell (d1 d2 : Reg) : bool :=
  (page d1 mod 256 =? page d2 mod 256) && (num d1 =? num d2).

(** The byte the cell of [d] holds after a script, when it held [init]
    before: the one of the last register action on that cell. *)
Fixpoint last_written (s : list Action) (d : Reg) (init : Z) : Z :=
  match s with
  | [] => init
  | WriteRegister d' v :: rest =>
      last_written rest d (if same_cell d' d then v mod 256 else init)
  | Delay _ :: rest => last_written rest d init
  end.

(** The byte the mock device holds for [d]. *)
Definition stored (dev : Device) (d : Reg) : Z :=
  default 0 (cells dev !! (page d mod 256, num d)).

(** * Properties *)

(** ** Packing a byte *)

Lemma pack_B_mod (v : Z) : pack_B v = [v mod 256].
Proof.
  unfold pack_B. f_equal.
  change 255 with (Z.ones 8). rewrite Z.land_ones by lia. reflexivity.
Qed.

Lemma pack_B_byte (v : Z) : 0 <= v < 256 -> pack_B v = [v].
Proof.
  intros Hv. rewrite pack_B_mod. f_equal. apply Z.mod_small. lia.
Qed.

(** ** Sequencing *)

Lemma bind_ok {B A C} (m : M B A) (k : A -> M B C) w w1 a :
  m w = (w1, Ok a) -> bind m k w = k a w1.
Proof.
  intros H. unfold bind. rewrite H. reflexivity.
Qed.

Lemma bind_raise {B A C} (m : M B A) (k : A -> M B C) w w1 e :
  m w = (w1, Raise e) -> bind m k w = (w1, Raise e).
Proof.
  intros H. unfold bind. rewrite H. reflexivity.
Qed.

Lemma always_acks_ack_bus : always_acks ack_bus.
Proof.
  intros addr memaddr buf b. reflexivity.
Qed.

Lemma default_actions_encode :
  map encode default_actions = CONFIG_I2S_IN_SPEAKER_OUT.
Proof. reflexivity. Qed.

(** Membership in the table of descriptors, by looking it up. *)
Ltac in_table :=
  unfold register_table; simpl;
  repeat first [left; reflexivity | right].

(** ** The driver on an arbitrary bus *)

Section Driver.

Context {B : Type} (i2c : I2C B).

Local Abbreviation self := (__init__ i2c).

(** The answer of the bus to the page select of [d] in the world [w]:
    acknowledged, or an exception. *)
Local Ltac page_select_answer d w :=
  destruct (i2c_writeto_mem i2c 24 _PAGE_SELECT (pack_B (page d)) (bus w))
    as [?b [[]|?e]].

Lemma writeto_mem_run addr memaddr buf (w : World B) :
  writeto_mem i2c addr memaddr buf w =
  (mkWorld (fst (i2c_writeto_mem i2c addr memaddr buf (bus w)))
           (log w ++ [EvWriteMem addr memaddr buf]),
   snd (i2c_writeto_mem i2c addr memaddr buf (bus w))).
Proof.
  unfold writeto_mem.
  destruct (i2c_writeto_mem i2c addr memaddr buf (bus w)); reflexivity.
Qed.

Lemma readfrom_mem_run addr memaddr n (w : World B) :
  readfrom_mem i2c addr memaddr n w =
  (mkWorld (fst (i2c_readfrom_mem i2c addr memaddr n (bus w)))
           (log w ++ [EvReadMem addr memaddr n]),
   snd (i2c_readfrom_mem i2c addr memaddr n (bus w))).
Proof.
  unfold readfrom_mem.
  destruct (i2c_readfrom_mem i2c addr memaddr n (bus w)); reflexivity.
Qed.

Lemma _set_page_run (p : Z) (w : World B) :
  _set_page self p w =
  (mkWorld (fst (i2c_writeto_mem i2c 0x18 _PAGE_SELECT (pack_B p) (bus w)))
           (log w ++ [page_select_event p]),
   snd (i2c_writeto_mem i2c 0x18 _PAGE_SELECT (pack_B p) (bus w))).
Proof.
  unfold _set_page. simpl. apply writeto_mem_run.
Qed.

(** What [_set_register] does, by the answer of the bus to the page
    select. *)
Lemma _set_register_run (d : Reg) (v : Z) (w : World B) :
  _set_register self d v w =
  match i2c_writeto_mem i2c 0x18 _PAGE_SELECT (pack_B (page d)) (bus w) with
  | (b1, Raise e) =>
      (mkWorld b1 (log w ++ [page_select_event (page d)]), Raise e)
  | (b1, Ok _) =>
      (mkWorld (fst (i2c_writeto_mem i2c 0x18 (num d) (pack_B v) b1))
               (log w ++ action_events (WriteRegister d v)),
       snd (i2c_writeto_mem i2c 0x18 (num d) (pack_B v) b1))
  end.
Proof.
  unfold _set_register, bind. rewrite _set_page_run.
  page_select_answer d w; simpl; [|reflexivity].
  rewrite writeto_mem_run. simpl. rewrite <- app_assoc. reflexivity.
Qed.

Lemma read_register_run (d : Reg) (w : World B) :
  read_register self d w =
  match i2c_writeto_mem i2c 0x18 _PAGE_SELECT (pack_B (page d)) (bus w) with
  | (b1, Raise e) =>
      (mkWorld b1 (log w ++ [page_select_event (page d)]), Raise e)
  | (b1, Ok _) =>
      let w2 := mkWorld (fst (i2c_readfrom_mem i2c 0x18 (num d) 1 b1))
                  (log w ++ [page_select_event (page d);
                             EvReadMem 0x18 (num d) 1]) in
      match snd (i2c_readfrom_mem i2c 0x18 (num d) 1 b1) with
      | Ok (b :: _) => (w2, Ok b)
      | Ok [] => (w2, Raise IndexError)
      | Raise e => (w2, Raise e)
      end
  end.
Proof.
  unfold read_register, bind. rewrite _set_page_run.
  page_select_answer d w; simpl; [|reflexivity].
  rewrite readfrom_mem_run. simpl. rewrite <- app_assoc. simpl.
  destruct (snd (i2c_readfrom_mem i2c 24 (num d) 1 b)) as [[|x r]|e];
    reflexivity.
Qed.

(** *** Running a script *)

Lemma config_action_write (d : Reg) (v : Z) :
  config_action self (encode (WriteRegister d v)) = _set_register self d v.
Proof. reflexivity. Qed.

Lemma config_action_delay (ms : Z) :
  config_action self (encode (Delay ms)) = sleep_ms ms.
Proof. reflexivity. Qed.

Lemma config_cons (a : line) (s : list line) (w : World B) :
  config self (a :: s) w = (config_action self a ;; config self s) w.
Proof. reflexivity. Qed.

Lemma config_app (s1 s2 : list line) (w : World B) :
  config self (s1 ++ s2) w = (config self s1 ;; config self s2) w.
Proof.
  revert w. induction s1 as [|a s1 IH]; intros w; simpl.
  - reflexivity.
  - unfold bind in *.
    destruct (config_action self a w) as [w1 [[]|e]]; [apply IH|].
    reflexivity.
Qed.

(** The log only grows by what the current action asks for: a prefix of
    its events, all of them when the action succeeds. *)
Lemma config_action_log (a : Action) (w : World B) :
  exists done,
    log (fst (config_action self (encode a) w)) = log w ++ done
    /\ done `prefix_of` action_events a
    /\ (snd (config_action self (encode a) w) = Ok tt ->
        done = action_events a).
Proof.
  destruct a as [d v|ms].
  - rewrite config_action_write, _set_register_run.
    page_select_answer d w; simpl.
    + exists [page_select_event (page d); value_write_event d v].
      split; [reflexivity|]. split; reflexivity.
    + exists [page_select_event (page d)].
      split; [reflexivity|]. split; [|discriminate].
      exists [value_write_event d v]. reflexivity.
  - rewrite config_action_delay. simpl.
    exists [EvSleep ms]. repeat split; reflexivity.
Qed.

Lemma config_log (s : list Action) (w : World B) :
  exists done,
    log (fst (config self (map encode s) w)) = log w ++ done
    /\ done `prefix_of` script_events s
    /\ (snd (config self (map encode s) w) = Ok tt ->
        done = script_events s).
Proof.
  revert w. induction s as [|a s IH]; intros w.
  - exists []. simpl. rewrite app_nil_r. repeat split; reflexivity.
  - destruct (config_action_log a w) as (d1 & Hlog & Hpre & Hok).
    rewrite map_cons, config_cons. unfold bind.
    destruct (config_action self (encode a) w) as [w1 [[]|e]]; simpl in *.
    + destruct (IH w1) as (d2 & Hlog2 & Hpre2 & Hok2).
      specialize (Hok eq_refl). subst d1.
      exists (action_events a ++ d2). split; [|split].
      * rewrite Hlog2, Hlog, <- app_assoc. reflexivity.
      * unfold script_events. simpl. apply prefix_app. exact Hpre2.
      * intros H. rewrite (Hok2 H). reflexivity.
    + exists d1. split; [exact Hlog|]. split; [|discriminate].
      unfold script_events. simpl.
      apply prefix_app_r. exact Hpre.
Qed.

(** How a run of [config] ends: either without error, after all the calls
    of the script, or with the exception of the bus at the first register
    action one of whose two writes the bus refused, after the calls of the
    actions before it and the calls of that action up to the refused one. *)
Lemma config_run (s : list Action) (w : World B) :
  (snd (config self (map encode s) w) = Ok tt
   /\ log (fst (config self (map encode s) w)) = log w ++ script_events s)
  \/ (exists (k : nat) (d : Reg) (v : Z) (w1 : World B) (e : exn),
        s !! k = Some (WriteRegister d v)
        /\ config self (map encode (take k s)) w = (w1, Ok tt)
        /\ log w1 = log w ++ script_events (take k s)
        /\ snd (config self (map encode s) w) = Raise e
        /\ ((snd (i2c_writeto_mem i2c 0x18 _PAGE_SELECT (pack_B (page d))
                    (bus w1)) = Raise e
             /\ log (fst (config self (map encode s) w))
                = log w1 ++ [page_select_event (page d)])
            \/ (exists b1,
                  i2c_writeto_mem i2c 0x18 _PAGE_SELECT (pack_B (page d))
                    (bus w1) = (b1, Ok tt)
                  /\ snd (i2c_writeto_mem i2c 0x18 (num d) (pack_B v) b1)
                     = Raise e
                  /\ log (fst (config self (map encode s) w))
                     = log w1 ++ [page_select_event (page d);
                                  value_write_event d v]))).
Proof.
  revert w. induction s as [|a s IH]; intros w.
  - left. simpl. rewrite app_nil_r. split; reflexivity.
  - rewrite map_cons, config_cons. unfold bind.
    destruct (config_action self (encode a) w) as [w1 [[]|e]] eqn:Ha.
    + assert (Hl1 : log w1 = log w ++ action_events a).
      { destruct (config_action_log a w) as (d1 & Hlog & _ & Hok).
        rewrite Ha in Hlog, Hok. simpl in Hlog, Hok.
        rewrite Hlog, (Hok eq_refl). reflexivity. }
      destruct (IH w1)
        as [[Hr Hl] | (k & d & v & w2 & e & Hk & Hrun & Hl2 & He & Hcase)].
      * left. split; [exact Hr|].
        rewrite Hl, Hl1, <- app_assoc. reflexivity.
      * right. exists (S k), d, v, w2, e.
        split; [exact Hk|]. split; [|split; [|split; [exact He|]]].
        -- rewrite firstn_cons, map_cons, config_cons.
           rewrite (bind_ok _ _ _ _ _ Ha). exact Hrun.
        -- rewrite Hl2, Hl1, firstn_cons, <- app_assoc. reflexivity.
        -- exact Hcase.
    + destruct a as [d v|ms]; [|discriminate Ha].
      right. exists 0%nat, d, v, w, e.
      split; [reflexivity|]. split; [reflexivity|].
      split; [simpl; rewrite app_nil_r; reflexivity|].
      split; [reflexivity|].
      rewrite config_action_write, _set_register_run in Ha.
      page_select_answer d w; simpl in *.
      * right. exists b. inversion Ha. split; [reflexivity|].
        split; reflexivity.
      * left. inversion Ha. split; reflexivity.
Qed.

(** C1.  For every script, [config] works through the actions in their
    order, and it does run them: it ends either without error, having made
    all the calls of the script, or with the exception of the bus at the
    first register action one of whose writes the bus refused, having made
    the calls of all the actions before it and the calls of that action up
    to the refused one, and none after.  On a bus that acknowledges every
    write it therefore makes every call of the script.  The calls are the
    events of the actions, one action after the other: for a register
    action the page-select write and then the value write, for a delay the
    wait of the given milliseconds and no bus call (the bus is left as it
    was). *)
Theorem config_applies_actions_in_order (s : list Action) (w : World B) :
  ((snd (config self (map encode s) w) = Ok tt
    /\ log (fst (config self (map encode s) w)) = log w ++ script_events s)
   \/ (exists (k : nat) (d : Reg) (v : Z) (w1 : World B) (e : exn),
         s !! k = Some (WriteRegister d v)
         /\ config self (map encode (take k s)) w = (w1, Ok tt)
         /\ log w1 = log w ++ script_events (take k s)
         /\ snd (config self (map encode s) w) = Raise e
         /\ ((snd (i2c_writeto_mem i2c 0x18 _PAGE_SELECT (pack_B (page d))
                     (bus w1)) = Raise e
              /\ log (fst (config self (map encode s) w))
                 = log w1 ++ [page_select_event (page d)])
             \/ (exists b1,
                   i2c_writeto_mem i2c 0x18 _PAGE_SELECT (pack_B (page d))
                     (bus w1) = (b1, Ok tt)
                   /\ snd (i2c_writeto_mem i2c 0x18 (num d) (pack_B v) b1)
                      = Raise e
                   /\ log (fst (config self (map encode s) w))
                      = log w1 ++ [page_select_event (page d);
                                   value_write_event d v]))))
  /\ (always_acks i2c ->
      snd (config self (map encode s) w) = Ok tt
      /\ log (fst (config self (map encode s) w))
         = log w ++ script_events s)
  /\ (exists done,
        log (fst (config self (map encode s) w)) = log w ++ done
        /\ done `prefix_of` script_events s
        /\ (snd (config self (map encode s) w) = Ok tt ->
            done = script_events s))
  /\ (forall d v,
        action_events (WriteRegister d v)
        = [EvWriteMem 0x18 _PAGE_SELECT (pack_B (page d));
           EvWriteMem 0x18 (num d) (pack_B v)])
  /\ (forall ms,
        config_action self (encode (Delay ms)) w
        = (mkWorld (bus w) (log w ++ [EvSleep ms]), Ok tt))
  /\ (forall s1 s2,
        script_events (s1 ++ s2) = script_events s1 ++ script_events s2).
Proof.
  split; [apply config_run|].
  split.
  { intros Hack.
    destruct (config_run s w)
      as [H | (k & d & v & w1 & e & _ & _ & _ & _ & Hcase)]; [exact H|].
    exfalso. destruct Hcase as [[Hps _] | (b1 & _ & Hvw & _)].
    - pose proof (Hack 24 _PAGE_SELECT (pack_B (page d)) (bus w1)) as H.
      unfold acks in H. rewrite H in Hps. discriminate Hps.
    - pose proof (Hack 24 (num d) (pack_B v) b1) as H.
      unfold acks in H. rewrite H in Hvw. discriminate Hvw. }
  split; [apply config_log|].
  split; [reflexivity|].
  split; [reflexivity|].
  intros s1 s2. unfold script_events. rewrite map_app, concat_app.
  reflexivity.
Qed.

(** C2, amended.  A register access always starts with the write of one
    byte, the low eight bits of [page d], to the page-select address 0 of
    the device at 0x18, whatever the state of the bus and whatever was
    selected before.  When the bus acknowledges it, the access goes on to
    the write of the low eight bits of [v] to (the read of one byte from)
    [num d] of the same device, and these two are all its calls; when the
    bus refuses it, the page select is the only call and the access ends
    with the exception of the bus.  For a page and a value from 0 to 255
    the bytes are the page and the value themselves.  An access that
    follows another one selects the page again. *)
Theorem register_access_reselects_page (d : Reg) (v : Z) (w : World B) :
  (exists tl,
      log (fst (_set_register self d v w))
      = log w ++ EvWriteMem 0x18 0 [page d mod 256] :: tl
      /\ (tl = [] \/ tl = [EvWriteMem 0x18 (num d) [v mod 256]]))
  /\ (exists tl,
        log (fst (read_register self d w))
        = log w ++ EvWriteMem 0x18 0 [page d mod 256] :: tl
        /\ (tl = [] \/ tl = [EvReadMem 0x18 (num d) 1]))
  /\ (acks i2c 0x18 _PAGE_SELECT [page d mod 256] (bus w) ->
      log (fst (_set_register self d v w))
      = log w ++ [EvWriteMem 0x18 0 [page d mod 256];
                  EvWriteMem 0x18 (num d) [v mod 256]]
      /\ log (fst (read_register self d w))
         = log w ++ [EvWriteMem 0x18 0 [page d mod 256];
                     EvReadMem 0x18 (num d) 1])
  /\ (forall e,
        snd (i2c_writeto_mem i2c 0x18 _PAGE_SELECT [page d mod 256] (bus w))
        = Raise e ->
        snd (_set_register self d v w) = Raise e
        /\ log (fst (_set_register self d v w))
           = log w ++ [EvWriteMem 0x18 0 [page d mod 256]]
        /\ snd (read_register self d w) = Raise e
        /\ log (fst (read_register self d w))
           = log w ++ [EvWriteMem 0x18 0 [page d mod 256]])
  /\ (0 <= page d < 256 ->
      0 <= v < 256 ->
      acks i2c 0x18 _PAGE_SELECT [page d] (bus w) ->
      log (fst (_set_register self d v w))
      = log w ++ [EvWriteMem 0x18 0 [page d]; EvWriteMem 0x18 (num d) [v]]
      /\ log (fst (read_register self d w))
         = log w ++ [EvWriteMem 0x18 0 [page d]; EvReadMem 0x18 (num d) 1])
  /\ (forall v',
        snd (_set_register self d v w) = Ok tt ->
        exists tl,
          log (fst ((_set_register self d v ;; _set_register self d v') w))
          = log w ++ [EvWriteMem 0x18 0 [page d mod 256];
                      EvWriteMem 0x18 (num d) [v mod 256];
                      EvWriteMem 0x18 0 [page d mod 256]] ++ tl).
Proof.
  assert (Hw : forall (w0 : World B) x,
    _set_register self d x w0
    = match i2c_writeto_mem i2c 24 _PAGE_SELECT [page d mod 256] (bus w0) with
      | (b1, Raise e) =>
          (mkWorld b1 (log w0 ++ [EvWriteMem 24 0 [page d mod 256]]), Raise e)
      | (b1, Ok _) =>
          (mkWorld (fst (i2c_writeto_mem i2c 24 (num d) [x mod 256] b1))
             (log w0 ++ [EvWriteMem 24 0 [page d mod 256];
                         EvWriteMem 24 (num d) [x mod 256]]),
           snd (i2c_writeto_mem i2c 24 (num d) [x mod 256] b1))
      end).
  { intros w0 x. rewrite _set_register_run.
    unfold action_events, page_select_event, value_write_event.
    rewrite !pack_B_mod. reflexivity. }
  assert (Hr :
    read_register self d w
    = match i2c_writeto_mem i2c 24 _PAGE_SELECT [page d mod 256] (bus w) with
      | (b1, Raise e) =>
          (mkWorld b1 (log w ++ [EvWriteMem 24 0 [page d mod 256]]), Raise e)
      | (b1, Ok _) =>
          let w2 := mkWorld (fst (i2c_readfrom_mem i2c 24 (num d) 1 b1))
                      (log w ++ [EvWriteMem 24 0 [page d mod 256];
                                 EvReadMem 24 (num d) 1]) in
          match snd (i2c_readfrom_mem i2c 24 (num d) 1 b1) with
          | Ok (b :: _) => (w2, Ok b)
          | Ok [] => (w2, Raise IndexError)
          | Raise e => (w2, Raise e)
          end
      end).
  { rewrite read_register_run. unfold page_select_event.
    rewrite !pack_B_mod. reflexivity. }
  assert (Hlr : forall b1,
    log (fst (let w2 := mkWorld (fst (i2c_readfrom_mem i2c 24 (num d) 1 b1))
                          (log w ++ [EvWriteMem 24 0 [page d mod 256];
                                     EvReadMem 24 (num d) 1]) in
              match snd (i2c_readfrom_mem i2c 24 (num d) 1 b1) with
              | Ok (b :: _) => (w2, Ok b)
              | Ok [] => (w2, Raise IndexError)
              | Raise e => (w2, Raise e)
              end))
    = log w ++ [EvWriteMem 24 0 [page d mod 256]; EvReadMem 24 (num d) 1]).
  { intros b1. simpl.
    destruct (snd (i2c_readfrom_mem i2c 24 (num d) 1 b1)) as [[|x r]|e];
      reflexivity. }
  split; [|split; [|split; [|split; [|split]]]].
  - rewrite Hw.
    destruct (i2c_writeto_mem i2c 24 _PAGE_SELECT [page d mod 256] (bus w))
      as [b1 [[]|e]]; simpl.
    + exists [EvWriteMem 24 (num d) [v mod 256]]. split; [reflexivity|].
      right. reflexivity.
    + exists []. split; [reflexivity|]. left. reflexivity.
  - rewrite Hr.
    destruct (i2c_writeto_mem i2c 24 _PAGE_SELECT [page d mod 256] (bus w))
      as [b1 [[]|e]].
    + exists [EvReadMem 24 (num d) 1]. split; [apply Hlr|].
      right. reflexivity.
    + exists []. split; [reflexivity|]. left. reflexivity.
  - intros Hack. unfold acks in Hack. rewrite Hw, Hr.
    destruct (i2c_writeto_mem i2c 24 _PAGE_SELECT [page d mod 256] (bus w))
      as [b1 r1]. simpl in Hack. subst r1.
    split; [reflexivity|apply Hlr].
  - intros e He. rewrite Hw, Hr.
    destruct (i2c_writeto_mem i2c 24 _PAGE_SELECT [page d mod 256] (bus w))
      as [b1 r1]. simpl in He. subst r1.
    repeat split; reflexivity.
  - intros Hp Hv Hack. unfold acks in Hack. rewrite Hw, Hr.
    rewrite (Z.mod_small (page d)) in * by lia.
    rewrite (Z.mod_small v) by lia.
    destruct (i2c_writeto_mem i2c 24 _PAGE_SELECT [page d] (bus w))
      as [b1 r1]. simpl in Hack. subst r1.
    split; [reflexivity|apply Hlr].
  - intros v' Hok. unfold bind.
    pose proof (Hw w v) as H1.
    destruct (_set_register self d v w) as [w1 [[]|e]] eqn:E1;
      [|discriminate Hok].
    assert (Hl1 : log w1 = log w ++ [EvWriteMem 24 0 [page d mod 256];
                                     EvWriteMem 24 (num d) [v mod 256]]).
    { destruct (i2c_writeto_mem i2c 24 _PAGE_SELECT [page d mod 256] (bus w))
        as [b1 [[]|e]]; inversion H1; reflexivity. }
    rewrite (Hw w1 v').
    destruct (i2c_writeto_mem i2c 24 _PAGE_SELECT [page d mod 256] (bus w1))
      as [b2 [[]|e]]; simpl; rewrite Hl1, <- app_assoc.
    + exists [EvWriteMem 24 (num d) [v' mod 256]]. reflexivity.
    + exists []. reflexivity.
Qed.



(** *** The volume of the speaker amplifier *)

(** C8, amended.  [set_speaker_amplifier_volume] hands the level shifted
    left by 4 bits to [_set_register] for SPEAKER_AMPLIFIER_VOLUME_CONTROL_2
    (address 48 on page 1).  The byte written is the low eight bits of
    [L << 4]; for a level from 0 to 15 that is [L << 4] itself. *)
Theorem set_speaker_amplifier_volume_writes_shifted_level (L : Z)
    (w : World B) :
  acks i2c 0x18 _PAGE_SELECT [1] (bus w) ->
  set_speaker_amplifier_volume self L w
  = _set_register self (_register 48 1) (Z.shiftl L 4) w
  /\ log (fst (set_speaker_amplifier_volume self L w))
     = log w ++ [EvWriteMem 0x18 0 [1];
                 EvWriteMem 0x18 48 [Z.shiftl L 4 mod 256]]
  /\ (0 <= L <= 15 ->
      log (fst (set_speaker_amplifier_volume self L w))
      = log w ++ [EvWriteMem 0x18 0 [1]; EvWriteMem 0x18 48 [Z.shiftl L 4]]).
Proof.
  intros Hack. unfold acks in Hack.
  assert (Hlog :
    log (fst (set_speaker_amplifier_volume self L w))
    = log w ++ [EvWriteMem 24 0 [1];
                EvWriteMem 24 48 [Z.shiftl L 4 mod 256]]).
  { unfold set_speaker_amplifier_volume. rewrite _set_register_run.
    change (pack_B (page SPEAKER_AMPLIFIER_VOLUME_CONTROL_2)) with [1].
    destruct (i2c_writeto_mem i2c 24 _PAGE_SELECT [1] (bus w)) as [b1 r1].
    simpl in Hack. subst r1. simpl.
    unfold page_select_event, value_write_event.
    rewrite (pack_B_mod (Z.shiftl L 4)). reflexivity. }
  split; [reflexivity|]. split; [exact Hlog|].
  intros HL. rewrite Hlog. repeat f_equal.
  rewrite Z.shiftl_mul_pow2 by lia. apply Z.mod_small. lia.
Qed.

(** *** No validation *)

(** C9, amended.  The driver checks neither page nor value and raises no
    error of its own: [_set_page] hands the low eight bits of the page to
    the bus and returns what the bus answers, and so does [_set_register]
    with the value, so that on a bus that acknowledges every write both
    succeed for every integer.  A page or value from 0 to 255 reaches the
    bus as it is, supported by the device or not. *)
Theorem register_access_validates_nothing (p : Z) (d : Reg) (v : Z)
    (w : World B) :
  _set_page self p w
  = (mkWorld (fst (i2c_writeto_mem i2c 0x18 0 [p mod 256] (bus w)))
             (log w ++ [EvWriteMem 0x18 0 [p mod 256]]),
     snd (i2c_writeto_mem i2c 0x18 0 [p mod 256] (bus w)))
  /\ (0 <= p < 256 -> p mod 256 = p)
  /\ (always_acks i2c ->
      snd (_set_page self p w) = Ok tt
      /\ snd (_set_register self d v w) = Ok tt
      /\ log (fst (_set_register self d v w))
         = log w ++ [EvWriteMem 0x18 0 [page d mod 256];
                     EvWriteMem 0x18 (num d) [v mod 256]]
      /\ (0 <= page d < 256 -> 0 <= v < 256 ->
          log (fst (_set_register self d v w))
          = log w ++ [EvWriteMem 0x18 0 [page d];
                      EvWriteMem 0x18 (num d) [v]])).
Proof.
  split; [|split].
  - rewrite _set_page_run. unfold page_select_event.
    rewrite pack_B_mod. reflexivity.
  - intros Hp. apply Z.mod_small. lia.
  - intros Hack.
    assert (Hlog : snd (_set_register self d v w) = Ok tt
      /\ log (fst (_set_register self d v w))
         = log w ++ [EvWriteMem 24 0 [page d mod 256];
                     EvWriteMem 24 (num d) [v mod 256]]).
    { rewrite _set_register_run.
      pose proof (Hack 24 _PAGE_SELECT (pack_B (page d)) (bus w)) as H1.
      unfold acks in H1.
      destruct (i2c_writeto_mem i2c 24 _PAGE_SELECT (pack_B (page d))
                  (bus w)) as [b1 r1].
      simpl in H1. subst r1. simpl.
      pose proof (Hack 24 (num d) (pack_B v) b1) as H2. unfold acks in H2.
      split; [exact H2|].
      unfold page_select_event, value_write_event.
      rewrite !pack_B_mod. reflexivity. }
    destruct Hlog as [Hr Hl].
    split; [|split; [exact Hr|split; [exact Hl|]]].
    + rewrite _set_page_run. simpl. apply Hack.
    + intros Hp Hv. rewrite Hl.
      rewrite (Z.mod_small (page d)) by lia.
      rewrite (Z.mod_small v) by lia. reflexivity.
Qed.

(** *** The delay token *)

(** C10.  A register descriptor is never taken for the delay token: the
    test [action[0] == DELAY_MS] is false for every descriptor, those of
    the table among them, so a line that starts with a descriptor is run
    as a register write and makes no wait. *)
Theorem delay_token_never_matches_a_descriptor (d : Reg) (v : Z)
    (rest : list line) (w : World B) :
  py_eq (VReg d) (VInt DELAY_MS) = false
  /\ List.Forall (fun nd => py_eq (VReg (snd nd)) (VInt DELAY_MS) = false)
       register_table
  /\ config_action self (VReg d, v) w = _set_register self d v w
  /\ config self ((VReg d, v) :: rest) w
     = (_set_register self d v ;; config self rest) w
  /\ (exists done,
        log (fst (config_action self (VReg d, v) w)) = log w ++ done
        /\ forall ms, ~ In (EvSleep ms) done).
Proof.
  split; [reflexivity|].
  split; [apply List.Forall_forall; intros [n r] _; reflexivity|].
  split; [reflexivity|]. split; [reflexivity|].
  destruct (config_action_log (WriteRegister d v) w)
    as (done & Hlog & [tl Hpre] & _).
  exists done. split; [exact Hlog|].
  intros ms Hin.
  assert (Hin' : In (EvSleep ms) (action_events (WriteRegister d v))).
  { rewrite Hpre. apply in_or_app. left. exact Hin. }
  simpl in Hin'. destruct Hin' as [H|[H|[]]]; discriminate H.
Qed.

(** *** On a bus that acknowledges every write *)

Section Acknowledging.

Hypothesis Hack : always_acks i2c.

Lemma config_action_acked (a : Action) (w : World B) :
  exists w1,
    config_action self (encode a) w = (w1, Ok tt)
    /\ log w1 = log w ++ action_events a.
Proof.
  destruct a as [d v|ms].
  - rewrite config_action_write, _set_register_run.
    pose proof (Hack 24 _PAGE_SELECT (pack_B (page d)) (bus w)) as H1.
    unfold acks in H1.
    destruct (i2c_writeto_mem i2c 24 _PAGE_SELECT (pack_B (page d)) (bus w))
      as [b1 r1].
    simpl in H1. subst r1.
    pose proof (Hack 24 (num d) (pack_B v) b1) as H2. unfold acks in H2.
    rewrite H2. eexists. split; reflexivity.
  - rewrite config_action_delay. eexists. split; reflexivity.
Qed.

(** A script runs to its end. *)
Lemma config_acked (s : list Action) (w : World B) :
  snd (config self (map encode s) w) = Ok tt
  /\ log (fst (config self (map encode s) w)) = log w ++ script_events s.
Proof.
  revert w. induction s as [|a s IH]; intros w.
  - simpl. rewrite app_nil_r. split; reflexivity.
  - rewrite map_cons, config_cons.
    destruct (config_action_acked a w) as (w1 & Hrun & Hlog).
    rewrite (bind_ok _ _ _ _ _ Hrun).
    destruct (IH w1) as [Hr Hl]. split; [exact Hr|].
    rewrite Hl, Hlog, <- app_assoc. reflexivity.
Qed.

(** C6.  On a bus that acknowledges every write, [config()] with its
    default script ends without error.  Its calls are, in the order of the
    script, one page-select write and one value write for each of the 21
    register lines, and two waits: 2 ms right after the write of the
    software reset, 15 ms after the five PLL writes (CLOCK_SETTING_1 to 5)
    and before the write of CLOCK_SETTING_6. *)
Theorem default_script_on_acknowledging_bus (w : World B) :
  snd (config_default self w) = Ok tt
  /\ length (List.filter is_write default_actions) = 21%nat
  /\ log (fst (config_default self w))
     = log w ++
       [ EvWriteMem 0x18 0 [0]; EvWriteMem 0x18 1 [0x01];
         EvSleep 2;
         EvWriteMem 0x18 0 [1]; EvWriteMem 0x18 2 [0x00];
         EvWriteMem 0x18 0 [0]; EvWriteMem 0x18 4 [0x07];
         EvWriteMem 0x18 0 [0]; EvWriteMem 0x18 5 [0x91];
         EvWriteMem 0x18 0 [0]; EvWriteMem 0x18 6 [40];
         EvWriteMem 0x18 0 [0]; EvWriteMem 0x18 7 [0];
         EvWriteMem 0x18 0 [0]; EvWriteMem 0x18 8 [0];
         EvSleep 15;
         EvWriteMem 0x18 0 [0]; EvWriteMem 0x18 11 [0x81];
         EvWriteMem 0x18 0 [0]; EvWriteMem 0x18 12 [0x82];
         EvWriteMem 0x18 0 [0]; EvWriteMem 0x18 13 [0x02];
         EvWriteMem 0x18 0 [0]; EvWriteMem 0x18 14 [0x80];
         EvWriteMem 0x18 0 [0]; EvWriteMem 0x18 27 [0x00];
         EvWriteMem 0x18 0 [0]; EvWriteMem 0x18 60 [0x02];
         EvWriteMem 0x18 0 [1]; EvWriteMem 0x18 1 [0x10];
         EvWriteMem 0x18 0 [1]; EvWriteMem 0x18 10 [0x00];
         EvWriteMem 0x18 0 [1]; EvWriteMem 0x18 46 [0];
         EvWriteMem 0x18 0 [1]; EvWriteMem 0x18 48 [0x00];
         EvWriteMem 0x18 0 [1]; EvWriteMem 0x18 45 [0x02];
         EvWriteMem 0x18 0 [0]; EvWriteMem 0x18 63 [0x91];
         EvWriteMem 0x18 0 [0]; EvWriteMem 0x18 65 [0];
         EvWriteMem 0x18 0 [0]; EvWriteMem 0x18 64 [0x04] ].
Proof.
  unfold config_default. rewrite <- default_actions_encode.
  destruct (config_acked default_actions w) as [Hr Hl].
  split; [exact Hr|]. split; [reflexivity|].
  rewrite Hl. reflexivity.
Qed.

End Acknowledging.

End Driver.

(** ** Write, then read back *)

Lemma register_table_num_nonzero (name : string) (d : Reg) :
  In (name, d) register_table -> num d <> 0.
Proof.
  unfold register_table. simpl.
  intros H.
  repeat (destruct H as [H|H]; [inversion H; subst; discriminate|]).
  contradiction.
Qed.

(** On the mock device a register other than the page-select one gives
    back the byte written to it. *)
Lemma mock_write_read (d : Reg) (v : Z) (dev : Device) (lg : list event) :
  num d <> 0 ->
  0 <= v <= 255 ->
  exists w1 w2,
    _set_register (__init__ mock_device) d v (mkWorld dev lg) = (w1, Ok tt)
    /\ read_register (__init__ mock_device) d w1 = (w2, Ok v).
Proof.
  intros Hn Hv.
  apply Z.eqb_neq in Hn.
  rewrite _set_register_run. simpl.
  eexists. eexists. split; [reflexivity|].
  rewrite read_register_run. simpl.
  assert (Ev : Z.land v 255 = v).
  { pose proof (pack_B_byte v ltac:(lia)) as E. unfold pack_B in E.
    injection E as E. exact E. }
  rewrite Ev. unfold poke, peek. simpl. rewrite !Hn. simpl. rewrite ?Hn.
  rewrite lookup_insert_eq. reflexivity.
Qed.

(** C5.  For a descriptor [d] of the table and a byte [v], writing [v] to
    [d] and then reading [d], on the device that keeps what it is told,
    returns [v]. *)
Theorem write_then_read_returns_value (name : string) (d : Reg) (v : Z)
    (dev : Device) (lg : list event) :
  In (name, d) register_table ->
  0 <= v <= 255 ->
  exists w1 w2,
    _set_register (__init__ mock_device) d v (mkWorld dev lg) = (w1, Ok tt)
    /\ read_register (__init__ mock_device) d w1 = (w2, Ok v).
Proof.
  intros Hin Hv. apply mock_write_read; [|exact Hv].
  exact (register_table_num_nonzero name d Hin).
Qed.

(** ** The descriptor table *)

Lemma register_table_addresses :
  List.Forall (fun x =>
    List.Forall (fun y => address_of (snd x) = address_of (snd y) ->
                          fst x = fst y) register_table) register_table.
Proof.
  unfold register_table.
  repeat (apply List.Forall_cons || apply List.Forall_nil);
    simpl; intros H; first [reflexivity | discriminate H].
Qed.

(** C7.  Two descriptors of the table with different names have different
    (page, address) pairs. *)
Theorem named_registers_have_distinct_addresses (n1 n2 : string)
    (d1 d2 : Reg) :
  In (n1, d1) register_table ->
  In (n2, d2) register_table ->
  n1 <> n2 ->
  (page d1, num d1) <> (page d2, num d2).
Proof.
  intros H1 H2 Hne Heq.
  pose proof register_table_addresses as HF.
  rewrite List.Forall_forall in HF. specialize (HF _ H1).
  rewrite List.Forall_forall in HF. specialize (HF _ H2).
  apply Hne. apply HF. exact Heq.
Qed.

(** * Concrete runs *)

(** ** The accessor on the acknowledging bus *)

(** C2, as the specification has it, says two transactions whatever
    happens and the bytes [page d] and [v] whatever they are.  On a bus
    that refuses the page select the access is one transaction, and on a
    bus that takes everything the page 256 goes out as the byte 0 and the
    value 300 as the byte 44. *)
Lemma register_access_can_be_one_transaction :
  log (fst (_set_register (__init__ (flaky_bus 0)) SPEAKER_VOLUME_CONTROL_1 0
              (mkWorld 0%nat [])))
  = [EvWriteMem 0x18 0 [1]]
  /\ log (fst (read_register (__init__ (flaky_bus 0)) SPEAKER_VOLUME_CONTROL_1
                 (mkWorld 0%nat [])))
     = [EvWriteMem 0x18 0 [1]]
  /\ length (log (fst (_set_register (__init__ (flaky_bus 0))
                         SPEAKER_VOLUME_CONTROL_1 0 (mkWorld 0%nat []))))
     <> 2%nat
  /\ log (fst (_set_register (__init__ ack_bus) (_register 46 256) 300
                 (mkWorld tt [])))
     = [EvWriteMem 0x18 0 [0]; EvWriteMem 0x18 46 [44]]
  /\ log (fst (_set_register (__init__ ack_bus) (_register 46 256) 300
                 (mkWorld tt [])))
     <> [EvWriteMem 0x18 0 [256]; EvWriteMem 0x18 46 [300]].
Proof.
  split; [reflexivity|]. split; [reflexivity|].
  split; [intros H; discriminate H|].
  split; [reflexivity|]. intros H. discriminate H.
Qed.

Lemma register_access_reselects_page_witness :
  0 <= page SPEAKER_VOLUME_CONTROL_1 < 256
  /\ 0 <= 0 < 256
  /\ acks ack_bus 0x18 _PAGE_SELECT [page SPEAKER_VOLUME_CONTROL_1] tt
  /\ log (fst (_set_register (__init__ ack_bus) SPEAKER_VOLUME_CONTROL_1 0
                (mkWorld tt [])))
     = [EvWriteMem 0x18 0 [1]; EvWriteMem 0x18 46 [0]]
  /\ log (fst (read_register (__init__ ack_bus) SPEAKER_VOLUME_CONTROL_1
                 (mkWorld tt [])))
     = [EvWriteMem 0x18 0 [1]; EvReadMem 0x18 46 1].
Proof.
  split; [change (0 <= 1 < 256); lia|]. split; [lia|].
  split; [reflexivity|].
  destruct (register_access_reselects_page ack_bus
              SPEAKER_VOLUME_CONTROL_1 0 (mkWorld tt []))
    as (_ & _ & _ & _ & H & _).
  apply H.
  - change (0 <= 1 < 256); lia.
  - lia.
  - reflexivity.
Defined.

Lemma default_script_on_acknowledging_bus_witness :
  always_acks ack_bus
  /\ snd (config_default (__init__ ack_bus) (mkWorld tt [])) = Ok tt
  /\ length (log (fst (config_default (__init__ ack_bus) (mkWorld tt []))))
     = 44%nat.
Proof.
  split; [exact always_acks_ack_bus|].
  destruct (default_script_on_acknowledging_bus ack_bus always_acks_ack_bus
              (mkWorld tt [])) as (Hr & _ & Hl).
  split; [exact Hr|]. rewrite Hl. reflexivity.
Defined.

(** ** A bus error in the middle of a script *)




(** ** The mock device and the table *)

Lemma write_then_read_returns_value_witness :
  In ("SPEAKER_VOLUME_CONTROL_1"%string, SPEAKER_VOLUME_CONTROL_1)
     register_table
  /\ 0 <= 200 <= 255
  /\ exists w1 w2,
       _set_register (__init__ mock_device) SPEAKER_VOLUME_CONTROL_1 200
         (mkWorld (mkDevice 0 ∅) []) = (w1, Ok tt)
       /\ read_register (__init__ mock_device) SPEAKER_VOLUME_CONTROL_1 w1
          = (w2, Ok 200).
Proof.
  assert (Hin : In ("SPEAKER_VOLUME_CONTROL_1"%string,
                    SPEAKER_VOLUME_CONTROL_1) register_table)
    by in_table.
  split; [exact Hin|]. split; [lia|].
  apply (write_then_read_returns_value "SPEAKER_VOLUME_CONTROL_1"
           SPEAKER_VOLUME_CONTROL_1 200 (mkDevice 0 ∅) []).
  - exact Hin.
  - lia.
Defined.

Lemma named_registers_have_distinct_addresses_witness :
  (page SOFTWARE_RESET, num SOFTWARE_RESET)
  <> (page REF_POR_LDO_BGAP_CONTROL, num REF_POR_LDO_BGAP_CONTROL).
Proof.
  apply (named_registers_have_distinct_addresses
           "SOFTWARE_RESET" "REF_POR_LDO_BGAP_CONTROL").
  - in_table.
  - in_table.
  - discriminate.
Defined.

(** ** Levels, pages and values that are no bytes *)

(** C8, as the specification has it for every level, fails at level 16:
    [16 << 4] is 256, which is no byte; the byte that goes to register 48
    is 0. *)
Lemma volume_16_does_not_write_256 :
  log (fst (set_speaker_amplifier_volume (__init__ ack_bus) 16
              (mkWorld tt [])))
  = [EvWriteMem 0x18 0 [1]; EvWriteMem 0x18 48 [0]]
  /\ log (fst (set_speaker_amplifier_volume (__init__ ack_bus) 16
                 (mkWorld tt [])))
     <> [EvWriteMem 0x18 0 [1]; EvWriteMem 0x18 48 [Z.shiftl 16 4]].
Proof.
  split; [reflexivity|]. intros H. discriminate H.
Qed.

Lemma set_speaker_amplifier_volume_writes_shifted_level_witness :
  acks ack_bus 0x18 _PAGE_SELECT [1] tt
  /\ log (fst (set_speaker_amplifier_volume (__init__ ack_bus) 3
                 (mkWorld tt [])))
     = [EvWriteMem 0x18 0 [1]; EvWriteMem 0x18 48 [48]].
Proof.
  split; [reflexivity|].
  destruct (set_speaker_amplifier_volume_writes_shifted_level ack_bus 3
              (mkWorld tt []) eq_refl) as (_ & _ & H).
  apply H. lia.
Defined.

(** C9, as the specification has it, says that a page or a value goes to
    the bus unchanged whatever it is.  Page 256 goes out as the byte 0,
    and the value 300 as the byte 44. *)
Lemma page_256_is_not_passed_unchanged :
  _set_page (__init__ ack_bus) 256 (mkWorld tt [])
  = (mkWorld tt [EvWriteMem 0x18 0 [0]], Ok tt)
  /\ log (fst (_set_page (__init__ ack_bus) 256 (mkWorld tt [])))
     <> [EvWriteMem 0x18 0 [256]]
  /\ log (fst (_set_register (__init__ ack_bus) SPEAKER_VOLUME_CONTROL_1 300
                 (mkWorld tt [])))
     = [EvWriteMem 0x18 0 [1]; EvWriteMem 0x18 46 [44]].
Proof.
  split; [reflexivity|]. split; [|reflexivity].
  intros H. discriminate H.
Qed.

Lemma register_access_validates_nothing_witness :
  always_acks ack_bus
  /\ snd (_set_register (__init__ ack_bus) (_register 200 7) 255
            (mkWorld tt [])) = Ok tt
  /\ log (fst (_set_register (__init__ ack_bus) (_register 200 7) 255
                 (mkWorld tt [])))
     = [EvWriteMem 0x18 0 [7]; EvWriteMem 0x18 200 [255]].
Proof.
  split; [exact always_acks_ack_bus|].
  destruct (register_access_validates_nothing ack_bus 7 (_register 200 7)
              255 (mkWorld tt [])) as (_ & _ & H).
  destruct (H always_acks_ack_bus) as (_ & Hr & _ & Hl).
  split; [exact Hr|]. apply Hl; simpl; lia.
Defined.

(** * Further properties of the driver *)

Section Traffic.

Context {B : Type} (i2c : I2C B).

Local Abbreviation drv := (__init__ i2c).

(** X1.  When the bus refuses the page select, a register access ends
    there with the error of the bus: [_set_register] makes no value write
    and [read_register] makes no read, the page select is the only call. *)
Theorem access_stops_at_failed_page_select (d : Reg) (v : Z) (w : World B)
    (b1 : B) (e : exn) :
  i2c_writeto_mem i2c 0x18 _PAGE_SELECT (pack_B (page d)) (bus w)
  = (b1, Raise e) ->
  _set_register drv d v w
  = (mkWorld b1 (log w ++ [page_select_event (page d)]), Raise e)
  /\ read_register drv d w
     = (mkWorld b1 (log w ++ [page_select_event (page d)]), Raise e).
Proof.
  intros H. rewrite _set_register_run, read_register_run, H.
  split; reflexivity.
Qed.

(** X2.  What [read_register] returns once the page is selected: the
    first byte of what the bus hands back, the exception of the bus when
    the read fails, and [IndexError] when the bus hands back nothing.  In
    each case both calls are in the log and the bus is in the state the
    read left. *)
Theorem read_register_answers (d : Reg) (w : World B) (b1 b2 : B)
    (r : res (list Z)) :
  i2c_writeto_mem i2c 0x18 _PAGE_SELECT (pack_B (page d)) (bus w)
  = (b1, Ok tt) ->
  i2c_readfrom_mem i2c 0x18 (num d) 1 b1 = (b2, r) ->
  read_register drv d w
  = (mkWorld b2 (log w ++ [page_select_event (page d);
                           EvReadMem 0x18 (num d) 1]),
     match r with
     | Ok (x :: _) => Ok x
     | Ok [] => Raise IndexError
     | Raise e => Raise e
     end).
Proof.
  intros H1 H2. rewrite read_register_run, H1, H2. simpl.
  destruct r as [[|x tl]|e]; reflexivity.
Qed.

(** X3.  A line whose first element is an integer other than [DELAY_MS]
    stops the script with [AttributeError]: the lines before it have run,
    the bus is not called for it, and the lines after it are not run. *)
Theorem config_stops_at_line_without_register (s1 rest : list line)
    (n v : Z) (w w1 : World B) :
  n <> DELAY_MS ->
  config drv s1 w = (w1, Ok tt) ->
  config drv (s1 ++ (VInt n, v) :: rest) w = (w1, Raise AttributeError).
Proof.
  intros Hn H1. rewrite config_app, (bind_ok _ _ _ _ _ H1), config_cons.
  apply bind_raise. unfold config_action. simpl.
  apply Z.eqb_neq in Hn. rewrite Hn. reflexivity.
Qed.

(** X4.  Running two scripts one after the other is running their
    concatenation: when the first one ends without error the second one
    starts in the world the first one left, and when the first one raises
    nothing of the second one is run. *)
Theorem config_of_concatenation (s1 s2 : list line) (w w1 : World B) :
  (config drv s1 w = (w1, Ok tt) ->
   config drv (s1 ++ s2) w = config drv s2 w1)
  /\ (forall e, config drv s1 w = (w1, Raise e) ->
                config drv (s1 ++ s2) w = (w1, Raise e)).
Proof.
  split.
  - intros H. rewrite config_app, (bind_ok _ _ _ _ _ H). reflexivity.
  - intros e H. rewrite config_app, (bind_raise _ _ _ _ _ H). reflexivity.
Qed.

(** X5.  A script of delays alone never calls the bus, so it cannot fail
    whatever the bus is: it waits the given times in order and leaves the
    bus as it found it. *)
Theorem config_of_delays_leaves_bus_alone (l : list Z) (w : World B) :
  config drv (map encode (map Delay l)) w
  = (mkWorld (bus w) (log w ++ map EvSleep l), Ok tt).
Proof.
  revert w. induction l as [|ms l IH]; intros w.
  - simpl. rewrite app_nil_r. destruct w; reflexivity.
  - rewrite !map_cons, config_cons, config_action_delay.
    unfold bind, sleep_ms. rewrite IH. simpl.
    rewrite <- app_assoc. reflexivity.
Qed.

Lemma script_events_sleep_or_byte_write (s : list Action) :
  List.Forall sleep_or_byte_write (script_events s).
Proof.
  induction s as [|a s IH]; [constructor|].
  unfold script_events. simpl. apply List.Forall_app. split; [|exact IH].
  destruct a as [d v|ms]; simpl.
  - unfold page_select_event, value_write_event. rewrite !pack_B_mod.
    repeat constructor; apply Z.mod_pos_bound; lia.
  - repeat constructor.
Qed.

(** X6.  Whatever the script and whatever the bus answers, every call
    [config] makes is a wait or a write of exactly one byte, from 0 to 255,
    to the device at 0x18: it never reads and never talks to another
    address. *)
Theorem config_only_sleeps_and_writes_bytes (s : list Action)
    (w : World B) :
  exists done,
    log (fst (config drv (map encode s) w)) = log w ++ done
    /\ List.Forall sleep_or_byte_write done.
Proof.
  destruct (config_log i2c s w) as (done & Hlog & [tl Hpre] & _).
  exists done. split; [exact Hlog|].
  pose proof (script_events_sleep_or_byte_write s) as HF.
  rewrite Hpre in HF. apply List.Forall_app in HF. apply HF.
Qed.

Lemma script_events_count (s : list Action) :
  length (List.filter is_bus (script_events s))
  = (2 * length (List.filter is_write s))%nat
  /\ List.filter is_sleep (script_events s) = map EvSleep (delays s).
Proof.
  induction s as [|a s [IH1 IH2]]; [split; reflexivity|].
  unfold script_events in *. simpl.
  rewrite !List.filter_app, length_app, IH1, IH2.
  destruct a as [d v|ms]; simpl; split; try reflexivity; lia.
Qed.

(** X7.  A script that ends without error has cost two bus transactions
    for each of its register actions and none for its delays, and has
    waited exactly the delays of the script, in their order. *)
Theorem config_bus_traffic (s : list Action) (w : World B) :
  snd (config drv (map encode s) w) = Ok tt ->
  exists done,
    log (fst (config drv (map encode s) w)) = log w ++ done
    /\ length (List.filter is_bus done)
       = (2 * length (List.filter is_write s))%nat
    /\ List.filter is_sleep done = map EvSleep (delays s).
Proof.
  intros Hok.
  destruct (config_log i2c s w) as (done & Hlog & _ & Hall).
  exists done. split; [exact Hlog|].
  rewrite (Hall Hok). apply script_events_count.
Qed.

(** X8.  The volume level counts modulo 16: a level and the level 16
    (or any multiple of 16) above or below it make the same calls with
    the same bytes, negative levels included. *)
Theorem set_speaker_amplifier_volume_wraps (L k : Z) (w : World B) :
  set_speaker_amplifier_volume drv (L + 16 * k) w
  = set_speaker_amplifier_volume drv L w.
Proof.
  unfold set_speaker_amplifier_volume. rewrite !_set_register_run.
  assert (E : pack_B (Z.shiftl (L + 16 * k) 4) = pack_B (Z.shiftl L 4)).
  { rewrite !pack_B_mod, !Z.shiftl_mul_pow2 by lia. f_equal.
    replace ((L + 16 * k) * 2 ^ 4) with (L * 2 ^ 4 + k * 256) by lia.
    apply Z.mod_add. lia. }
  unfold action_events, value_write_event. rewrite E. reflexivity.
Qed.

End Traffic.

(** ** The driver on the mock device *)

Lemma mock_set_register (d : Reg) (v : Z) (dev : Device) (lg : list event) :
  _set_register (__init__ mock_device) d v (mkWorld dev lg)
  = (mkWorld (poke (poke dev 0 (page d mod 256)) (num d) (v mod 256))
             (lg ++ action_events (WriteRegister d v)),
     Ok tt).
Proof.
  rewrite _set_register_run, !pack_B_mod. reflexivity.
Qed.

Lemma mock_read_register (d : Reg) (dev : Device) (lg : list event) :
  read_register (__init__ mock_device) d (mkWorld dev lg)
  = (mkWorld (poke dev 0 (page d mod 256))
             (lg ++ [page_select_event (page d); EvReadMem 0x18 (num d) 1]),
     Ok (peek (poke dev 0 (page d mod 256)) (num d))).
Proof.
  rewrite read_register_run, !pack_B_mod. reflexivity.
Qed.

Lemma peek_selected (dev : Device) (d : Reg) :
  num d <> 0 ->
  peek (poke dev 0 (page d mod 256)) (num d) = stored dev d.
Proof.
  intros Hn. apply Z.eqb_neq in Hn.
  unfold peek, poke, stored. simpl. rewrite Hn. reflexivity.
Qed.

(** What a register write leaves in the cell of another descriptor. *)
Lemma stored_after_write (d d' : Reg) (v : Z) (dev : Device) :
  num d <> 0 ->
  stored (poke (poke dev 0 (page d' mod 256)) (num d') (v mod 256)) d
  = if same_cell d' d then v mod 256 else stored dev d.
Proof.
  intros Hn. unfold stored, same_cell, poke. simpl.
  destruct (num d' =? 0) eqn:E0; simpl.
  - apply Z.eqb_eq in E0.
    replace (num d' =? num d) with false
      by (symmetry; apply Z.eqb_neq; lia).
    rewrite andb_false_r. reflexivity.
  - destruct (page d' mod 256 =? page d mod 256) eqn:Ep;
      destruct (num d' =? num d) eqn:En; simpl.
    + apply Z.eqb_eq in Ep, En. rewrite Ep, En.
      rewrite lookup_insert_eq. reflexivity.
    + apply Z.eqb_neq in En.
      rewrite lookup_insert_ne by congruence. reflexivity.
    + apply Z.eqb_neq in Ep.
      rewrite lookup_insert_ne by congruence. reflexivity.
    + apply Z.eqb_neq in Ep.
      rewrite lookup_insert_ne by congruence. reflexivity.
Qed.

(** A script on the mock device runs to its end; what it leaves in the
    cell of [d] is the last byte written there. *)
Lemma mock_config (s : list Action) (d : Reg) (dev : Device)
    (lg : list event) :
  num d <> 0 ->
  exists w1,
    config (__init__ mock_device) (map encode s) (mkWorld dev lg)
    = (w1, Ok tt)
    /\ stored (bus w1) d = last_written s d (stored dev d).
Proof.
  intros Hn. revert dev lg. induction s as [|a s IH]; intros dev lg.
  - eexists. split; reflexivity.
  - rewrite map_cons, config_cons. destruct a as [d' v|ms].
    + rewrite config_action_write.
      rewrite (bind_ok _ _ _ _ _ (mock_set_register d' v dev lg)).
      destruct (IH (poke (poke dev 0 (page d' mod 256)) (num d') (v mod 256))
                   (lg ++ action_events (WriteRegister d' v)))
        as (w1 & Hrun & Hst).
      exists w1. split; [exact Hrun|].
      rewrite Hst, stored_after_write by exact Hn. reflexivity.
    + rewrite config_action_delay. unfold bind, sleep_ms. simpl.
      destruct (IH dev (lg ++ [EvSleep ms])) as (w1 & Hrun & Hst).
      exists w1. split; [exact Hrun|exact Hst].
Qed.

Lemma mock_read_stored (d : Reg) (w : World Device) :
  num d <> 0 ->
  exists w2,
    read_register (__init__ mock_device) d w = (w2, Ok (stored (bus w) d)).
Proof.
  intros Hn. destruct w as [dev lg].
  rewrite mock_read_register, peek_selected by exact Hn.
  eexists. reflexivity.
Qed.

(** X9.  On the mock device a script always runs to its end, and a
    register read after it returns the byte of the last register action of
    the script on that cell, or what the cell held before when the script
    has none: a later write wins over an earlier one, and writes to other
    cells and delays change nothing. *)
Theorem config_then_read_gives_last_written (s : list Action) (d : Reg)
    (dev : Device) (lg : list event) :
  num d <> 0 ->
  exists w1 w2,
    config (__init__ mock_device) (map encode s) (mkWorld dev lg)
    = (w1, Ok tt)
    /\ read_register (__init__ mock_device) d w1
       = (w2, Ok (last_written s d (stored dev d))).
Proof.
  intros Hn.
  destruct (mock_config s d dev lg Hn) as (w1 & Hrun & Hst).
  destruct (mock_read_stored d w1 Hn) as (w2 & Hread).
  exists w1, w2. split; [exact Hrun|]. rewrite Hread, Hst. reflexivity.
Qed.

Lemma register_table_cells :
  List.Forall (fun x =>
    List.Forall (fun y => same_cell (snd x) (snd y) = true ->
                          fst x = fst y) register_table) register_table.
Proof.
  unfold register_table.
  repeat (apply List.Forall_cons || apply List.Forall_nil);
    intros H; first [reflexivity | vm_compute in H; discriminate H].
Qed.

(** X10.  Registers of the table do not disturb each other: after a write
    to one of them, a write to another one (with a different name) and a
    read of the first, the read returns the byte written first, also when
    the two share their address on different pages. *)
Theorem table_registers_do_not_interfere (n1 n2 : string) (d1 d2 : Reg)
    (v1 v2 : Z) (dev : Device) (lg : list event) :
  In (n1, d1) register_table ->
  In (n2, d2) register_table ->
  n1 <> n2 ->
  0 <= v1 <= 255 ->
  exists w1 w2 w3,
    _set_register (__init__ mock_device) d1 v1 (mkWorld dev lg) = (w1, Ok tt)
    /\ _set_register (__init__ mock_device) d2 v2 w1 = (w2, Ok tt)
    /\ read_register (__init__ mock_device) d1 w2 = (w3, Ok v1).
Proof.
  intros H1 H2 Hne Hv.
  pose proof (register_table_num_nonzero n1 d1 H1) as Hn.
  assert (Hcell : same_cell d2 d1 = false).
  { destruct (same_cell d2 d1) eqn:E; [|reflexivity].
    exfalso. apply Hne.
    pose proof register_table_cells as HF.
    rewrite List.Forall_forall in HF. specialize (HF _ H2).
    rewrite List.Forall_forall in HF. specialize (HF _ H1).
    symmetry. apply HF. exact E. }
  rewrite mock_set_register. eexists. eexists. eexists.
  split; [reflexivity|].
  rewrite mock_set_register. split; [reflexivity|].
  rewrite mock_read_register, peek_selected by exact Hn.
  rewrite stored_after_write by exact Hn. rewrite Hcell.
  rewrite stored_after_write by exact Hn.
  assert (Hsame : same_cell d1 d1 = true).
  { unfold same_cell. rewrite !Z.eqb_refl. reflexivity. }
  rewrite Hsame, (Z.mod_small v1) by lia. reflexivity.
Qed.

(** X11.  A level from 0 to 15 set with [set_speaker_amplifier_volume] is
    read back from SPEAKER_AMPLIFIER_VOLUME_CONTROL_2 in bits 4 to 7: the
    byte read, shifted right by 4 bits, is the level. *)
Theorem volume_is_read_back (L : Z) (dev : Device) (lg : list event) :
  0 <= L <= 15 ->
  exists w1 w2 r,
    set_speaker_amplifier_volume (__init__ mock_device) L (mkWorld dev lg)
    = (w1, Ok tt)
    /\ read_register (__init__ mock_device)
         SPEAKER_AMPLIFIER_VOLUME_CONTROL_2 w1 = (w2, Ok r)
    /\ Z.shiftr r 4 = L
    /\ Z.land r 15 = 0.
Proof.
  intros HL. unfold set_speaker_amplifier_volume.
  rewrite mock_set_register. eexists. eexists. eexists.
  split; [reflexivity|].
  assert (Hn : num SPEAKER_AMPLIFIER_VOLUME_CONTROL_2 <> 0) by discriminate.
  rewrite mock_read_register, peek_selected, stored_after_write by exact Hn.
  assert (Hsame : same_cell SPEAKER_AMPLIFIER_VOLUME_CONTROL_2
                    SPEAKER_AMPLIFIER_VOLUME_CONTROL_2 = true)
    by reflexivity.
  rewrite Hsame. split; [reflexivity|].
  rewrite Z.shiftl_mul_pow2 by lia. change (2 ^ 4) with 16.
  rewrite (Z.mod_small (L * 16)) by lia.
  split.
  - rewrite Z.shiftr_div_pow2 by lia. change (2 ^ 4) with 16.
    apply Z.div_mul. lia.
  - change 15 with (Z.ones 4). rewrite Z.land_ones by lia.
    change (2 ^ 4) with 16. apply Z.mod_mul. lia.
Qed.

(** X12.  The driver does not keep address 0 for itself.  A write through
    a descriptor whose address is 0 goes to the page-select register: on
    the mock device it changes the selected page to the byte written and
    no cell, and a read through the same descriptor returns the page of
    the descriptor, not the byte written. *)
Theorem register_zero_is_the_page_select (d : Reg) (v : Z) (dev : Device)
    (lg : list event) :
  num d = 0 ->
  exists w1 w2,
    _set_register (__init__ mock_device) d v (mkWorld dev lg) = (w1, Ok tt)
    /\ cells (bus w1) = cells dev
    /\ selected (bus w1) = v mod 256
    /\ read_register (__init__ mock_device) d w1 = (w2, Ok (page d mod 256)).
Proof.
  intros Hn. rewrite mock_set_register. eexists. eexists.
  split; [reflexivity|]. simpl bus. rewrite Hn.
  split; [reflexivity|]. split; [reflexivity|].
  rewrite mock_read_register, Hn. reflexivity.
Qed.

(** ** Concrete runs of the further properties *)

Lemma access_stops_at_failed_page_select_witness :
  _set_register (__init__ (flaky_bus 0)) SOFTWARE_RESET 1 (mkWorld 0%nat [])
  = (mkWorld 1%nat [EvWriteMem 0x18 0 [0]], Raise (OSError EIO))
  /\ read_register (__init__ (flaky_bus 0)) SOFTWARE_RESET (mkWorld 0%nat [])
     = (mkWorld 1%nat [EvWriteMem 0x18 0 [0]], Raise (OSError EIO)).
Proof.
  apply (access_stops_at_failed_page_select (flaky_bus 0) SOFTWARE_RESET 1
           (mkWorld 0%nat []) 1%nat (OSError EIO)).
  reflexivity.
Defined.

Lemma read_register_answers_witness :
  read_register (__init__ ack_bus) LDO_CONTROL (mkWorld tt [])
  = (mkWorld tt [EvWriteMem 0x18 0 [1]; EvReadMem 0x18 2 1], Ok 0).
Proof.
  apply (read_register_answers ack_bus LDO_CONTROL (mkWorld tt []) tt tt
           (Ok [0])).
  - reflexivity.
  - reflexivity.
Defined.

Lemma config_stops_at_line_without_register_witness :
  config (__init__ ack_bus)
    ([(VReg SOFTWARE_RESET, 1)] ++ (VInt 5, 0) :: [(VReg LDO_CONTROL, 0)])
    (mkWorld tt [])
  = (mkWorld tt [EvWriteMem 0x18 0 [0]; EvWriteMem 0x18 1 [1]],
     Raise AttributeError).
Proof.
  apply (config_stops_at_line_without_register ack_bus
           [(VReg SOFTWARE_RESET, 1)] [(VReg LDO_CONTROL, 0)] 5 0
           (mkWorld tt [])).
  - discriminate.
  - reflexivity.
Defined.

Lemma config_bus_traffic_witness :
  exists done,
    log (fst (config (__init__ ack_bus)
                (map encode [WriteRegister SOFTWARE_RESET 1; Delay 2])
                (mkWorld tt [])))
    = [] ++ done
    /\ length (List.filter is_bus done) = 2%nat
    /\ List.filter is_sleep done = [EvSleep 2].
Proof.
  apply (config_bus_traffic ack_bus
           [WriteRegister SOFTWARE_RESET 1; Delay 2] (mkWorld tt [])).
  reflexivity.
Defined.

Lemma config_then_read_gives_last_written_witness :
  exists w1 w2,
    config (__init__ mock_device)
      (map encode [WriteRegister LDO_CONTROL 3; Delay 1;
                   WriteRegister LDO_CONTROL 7])
      (mkWorld (mkDevice 0 ∅) [])
    = (w1, Ok tt)
    /\ read_register (__init__ mock_device) LDO_CONTROL w1 = (w2, Ok 7).
Proof.
  apply (config_then_read_gives_last_written
           [WriteRegister LDO_CONTROL 3; Delay 1; WriteRegister LDO_CONTROL 7]
           LDO_CONTROL (mkDevice 0 ∅) []).
  discriminate.
Defined.

Lemma table_registers_do_not_interfere_witness :
  exists w1 w2 w3,
    _set_register (__init__ mock_device) SOFTWARE_RESET 1
      (mkWorld (mkDevice 0 ∅) []) = (w1, Ok tt)
    /\ _set_register (__init__ mock_device) REF_POR_LDO_BGAP_CONTROL 16 w1
       = (w2, Ok tt)
    /\ read_register (__init__ mock_device) SOFTWARE_RESET w2 = (w3, Ok 1).
Proof.
  apply (table_registers_do_not_interfere
           "SOFTWARE_RESET" "REF_POR_LDO_BGAP_CONTROL").
  - in_table.
  - in_table.
  - discriminate.
  - lia.
Defined.

Lemma volume_is_read_back_witness :
  exists w1 w2 r,
    set_speaker_amplifier_volume (__init__ mock_device) 5
      (mkWorld (mkDevice 0 ∅) []) = (w1, Ok tt)
    /\ read_register (__init__ mock_device)
         SPEAKER_AMPLIFIER_VOLUME_CONTROL_2 w1 = (w2, Ok r)
    /\ Z.shiftr r 4 = 5
    /\ Z.land r 15 = 0.
Proof.
  apply (volume_is_read_back 5 (mkDevice 0 ∅) []). lia.
Defined.

Lemma register_zero_is_the_page_select_witness :
  exists w1 w2,
    _set_register (__init__ mock_device) (_register 0 1) 9
      (mkWorld (mkDevice 0 ∅) []) = (w1, Ok tt)
    /\ cells (bus w1) = ∅
    /\ selected (bus w1) = 9
    /\ read_register (__init__ mock_device) (_register 0 1) w1 = (w2, Ok 1).
Proof.
  apply (register_zero_is_the_page_select (_register 0 1) 9
           (mkDevice 0 ∅) []).
  reflexivity.
Defined.
